(** * Success stories: the Story model and its post-save receivers

  A shallow embedding of [successstories/models.py]: the [Story] record with
  its display helpers and its [clean] validation, and the two [post_save]
  receivers ([update_successstories_supernav], [send_email_to_psf]) as
  computations over an explicit world (box store, purge log, mail log). *)

From Stdlib Require Import ZArith String Ascii List Decimal DecimalString DecimalPos DecimalZ Lia.
From stdpp Require Import gmap strings.

Local Open Scope string_scope.
Local Open Scope Z_scope.

(** ** Python values used by the module *)

Module Py.

(** The values Django passes in the keyword arguments of a signal. *)
Inductive val :=
| VNone
| VBool (b : bool)
| VInt (z : Z)
| VStr (s : string).

(** Python truthiness, as tested by [if x:]. *)
Definition truthy (v : val) : bool :=
  match v with
  | VNone => false
  | VBool b => b
  | VInt z => negb (z =? 0)
  | VStr s => negb (String.eqb s "")
  end.

(** [d.get(key, default)] *)
Definition dict_get (d : gmap string val) (key : string) (default : val) : val :=
  match d !! key with
  | Some v => v
  | None => default
  end.

(** [str(n)] / ["{}".format(n)] for an [int]: decimal digits, [-] for negatives. *)
Definition str_int (z : Z) : string := NilZero.string_of_int (Z.to_int z).

(** ["{}".format(x)] for a value that is a [str] or [None]. *)
Definition str_opt (o : option string) : string :=
  match o with
  | Some s => s
  | None => "None"
  end.

(** Exceptions raised in this module. *)
Inductive exn :=
| ValidationError (message : string)
| TransportError (detail : string).

End Py.

(** ** Data model *)

Module Company.
(** [companies.models.Company]: only the attributes read here. *)
Record t := mk { name : string; url : string }.
End Company.

Module StoryCategory.
Record t := mk { name : string; slug : string }.

Definition __str__ (self : t) : string := name self.
End StoryCategory.

Module Markup.
(** The value of a [MarkupField]: raw text, its markup type and the
    rendered form. *)
Record t := mk { raw : string; markup_type : string; rendered : string }.
End Markup.

Module Story.

Record t := mk {
  name : string;
  slug : string;
  company_name : string;
  company_url : string;
  company : option Company.t;
  category : StoryCategory.t;
  author : string;
  author_email : option string;
  pull_quote : string;
  content : Markup.t;
  is_published : bool;
  featured : bool;
  weight : Z;
  image : option string
}.

Definition __str__ (self : t) : string := name self.

(** ["{} %".format(self.weight)] *)
Definition get_weight_display (self : t) : string :=
  Py.str_int (weight self) +:+ " %".

Definition get_company_name (self : t) : string :=
  match company self with
  | Some c => Company.name c
  | None => company_name self
  end.

Definition get_company_url (self : t) : string :=
  match company self with
  | Some c => Company.url c
  | None => company_url self
  end.

(** [clean]: [inr tt] when it returns, [inl e] when it raises [e]. *)
Definition clean (self : t) : Py.exn + unit :=
  if featured self && (weight self =? 0) then
    inl (Py.ValidationError "Cannot be a featured story with weight==0")
  else if 100 <? weight self then
    inl (Py.ValidationError "weight cannot exceed 100")
  else inr tt.

Definition set_company (c : option Company.t) (self : t) : t :=
  mk (name self) (slug self) (company_name self) (company_url self) c
     (category self) (author self) (author_email self) (pull_quote self)
     (content self) (is_published self) (featured self) (weight self)
     (image self).

End Story.

Module EmailMessage.
(** [django.core.mail.EmailMessage], with the attributes this module sets. *)
Record t := mk {
  subject : string;
  body : string;
  from_email : string;
  to : list string;
  cc : list string;
  bcc : list string;
  headers : gmap string (option string);
  content_subtype : string
}.

Definition set_content_subtype (v : string) (self : t) : t :=
  mk (subject self) (body self) (from_email self) (to self) (cc self)
     (bcc self) (headers self) v.

Definition recipients (self : t) : list string :=
  (to self ++ cc self ++ bcc self)%list.
End EmailMessage.

Module Box.
(** [boxes.models.Box]: a labelled fragment of content. *)
Record t := mk { label : string; content : string }.

Definition set_content (v : string) (self : t) : t := mk (label self) v.
End Box.

(** ** The world the receivers act on *)

Record World := mkWorld {
  stories : gmap string Story.t;      (* stored Story rows, by slug *)
  boxes : gmap string string;         (* Box rows: label to content *)
  purged : list string;               (* paths passed to [purge_url], in order *)
  outbox : list EmailMessage.t        (* messages handed to the mail backend, in order *)
}.

Definition empty_world : World := mkWorld ∅ ∅ [] [].

(** Computations that read and write the world and may raise. *)
Definition M (A : Type) : Type := World -> World * (Py.exn + A).

Definition ret {A} (a : A) : M A := fun w => (w, inr a).

Definition raise {A} (e : Py.exn) : M A := fun w => (w, inl e).

Definition bind {A B} (m : M A) (k : A -> M B) : M B :=
  fun w =>
    match m w with
    | (w', inr a) => k a w'
    | (w', inl e) => (w', inl e)
    end.

Notation "'let*' x ':=' m 'in' k" := (bind m (fun x => k))
  (at level 10, x name, m at level 200, k at level 200).
Notation "m >> k" := (bind m (fun _ => k))
  (at level 65, right associativity).

Definition lift {A} (r : Py.exn + A) : M A := fun w => (w, r).

(** ** Collaborators outside this module *)

Class Externals := {
  (** [settings.DEFAULT_FROM_EMAIL] *)
  DEFAULT_FROM_EMAIL : string;
  (** [render_to_string(template, {'story': instance})] *)
  render_to_string : string -> Story.t -> string;
  (** [reverse(viewname, kwargs=...)] *)
  reverse : string -> gmap string string -> string;
  (** what [str.format] substitutes for a [MarkupField] value *)
  format_markup : Markup.t -> string;
  (** the mail backend: [None] when it accepts the message, [Some d] when
      it raises *)
  deliver : EmailMessage.t -> option string
}.

(** ** External operations on the world *)

(** [Box.objects.get_or_create(label=label)] *)
Definition Box_get_or_create (label : string) : M (Box.t * bool) :=
  fun w =>
    match boxes w !! label with
    | Some c => (w, inr (Box.mk label c, false))
    | None =>
        (mkWorld (stories w) (<[label := ""]> (boxes w)) (purged w) (outbox w),
         inr (Box.mk label "", true))
    end.

(** [box.save()] *)
Definition Box_save (box : Box.t) : M unit :=
  fun w =>
    (mkWorld (stories w) (<[Box.label box := Box.content box]> (boxes w))
             (purged w) (outbox w),
     inr tt).

(** [fastly.utils.purge_url(path)] *)
Definition purge_url (path : string) : M unit :=
  fun w => (mkWorld (stories w) (boxes w) (purged w ++ [path])%list (outbox w), inr tt).

(** [EmailMessage.send()]: nothing happens without recipients; otherwise the
    message goes to the mail backend, whose failure is raised. *)
Definition EmailMessage_send `{Externals} (email : EmailMessage.t) : M Z :=
  fun w =>
    match EmailMessage.recipients email with
    | [] => (w, inr 0)
    | _ :: _ =>
        let w' := mkWorld (stories w) (boxes w) (purged w) (outbox w ++ [email])%list in
        match deliver email with
        | None => (w', inr 1)
        | Some d => (w', inl (Py.TransportError d))
        end
    end.

(** ** Module constants and the receivers *)

Definition PSF_TO_EMAILS : list string :=
  ["ewa@python.org"; "berker.peksag@gmail.com"].

Definition nl : string := String "010"%char "".

Definition get_absolute_url `{Externals} (self : Story.t) : string :=
  reverse "success_story_detail" {[ "slug" := Story.slug self ]}.

Definition raw_flag (kwargs : gmap string Py.val) : bool :=
  Py.truthy (Py.dict_get kwargs "raw" (Py.VBool false)).

Definition update_successstories_supernav `{Externals}
    (instance : Story.t) (created : bool) (kwargs : gmap string Py.val) : M unit :=
  if raw_flag kwargs then ret tt
  else
    (if Story.is_published instance && Story.featured instance then
       let content := render_to_string "successstories/supernav.html" instance in
       let* r := Box_get_or_create "supernav-python-success-stories" in
       Box_save (Box.set_content content (fst r)) >>
       purge_url "/box/supernav-python-success-stories/"
     else ret tt) >>
    if Story.is_published instance then purge_url (get_absolute_url instance)
    else ret tt.

(** The body template of the notification, with its fields filled in. *)
Definition body_format `{Externals} (instance : Story.t) : string :=
  "Name: " +:+ Story.name instance +:+ nl +:+
  "Company name: " +:+ Story.company_name instance +:+ nl +:+
  "Company URL: " +:+ Story.company_url instance +:+ nl +:+
  "Category: " +:+ StoryCategory.name (Story.category instance) +:+ nl +:+
  "Author: " +:+ Story.author instance +:+ nl +:+
  "Author email: " +:+ Py.str_opt (Story.author_email instance) +:+ nl +:+
  "Pull quote:" +:+ nl +:+ nl +:+
  Story.pull_quote instance +:+ nl +:+ nl +:+
  "Content:" +:+ nl +:+ nl +:+
  format_markup (Story.content instance) +:+ nl +:+
  "        ".

(** The [EmailMessage] built by [send_email_to_psf], after
    [email.content_subtype = 'html']. *)
Definition notification `{Externals} (instance : Story.t) : EmailMessage.t :=
  let email :=
    EmailMessage.mk
      ("New success story submission: " +:+ Story.name instance)
      (body_format instance)
      DEFAULT_FROM_EMAIL
      PSF_TO_EMAILS [] []
      {[ "Reply-To" := Story.author_email instance ]}
      "plain" in
  EmailMessage.set_content_subtype "html" email.

Definition send_email_to_psf `{Externals}
    (instance : Story.t) (created : bool) (kwargs : gmap string Py.val) : M unit :=
  if raw_flag kwargs then ret tt
  else if negb (Story.is_published instance) then
    EmailMessage_send (notification instance) >> ret tt
  else ret tt.

(** ** Signal dispatch *)

Definition receiver : Type := Story.t -> bool -> gmap string Py.val -> M unit.

(** The receivers connected to [post_save] for [Story], in the order the
    [@receiver] decorators run. *)
Definition post_save_receivers `{Externals} : list receiver :=
  [update_successstories_supernav; send_email_to_psf].

(** [Signal.send]: every receiver is called in turn; an exception raised by
    one of them ends the dispatch and reaches the caller. *)
Fixpoint Signal_send (receivers : list receiver)
    (instance : Story.t) (created : bool) (kwargs : gmap string Py.val) : M unit :=
  match receivers with
  | [] => ret tt
  | r :: rest => r instance created kwargs >> Signal_send rest instance created kwargs
  end.

Definition post_save `{Externals}
    (instance : Story.t) (created : bool) (kwargs : gmap string Py.val) : M unit :=
  Signal_send post_save_receivers instance created kwargs.

(** Modelled from the spec: the storage write of a save, which lives in the
    [NameSlugModel] / [ContentManageable] base classes and the ORM, none of
    them among the sources. The record is stored under its unique slug. *)
Definition persist (instance : Story.t) : M unit :=
  fun w =>
    (mkWorld (<[Story.slug instance := instance]> (stories w)) (boxes w)
             (purged w) (outbox w),
     inr tt).

(** Modelled from the spec: the save operation (inherited from the base
    classes, not among the sources). "Each save operation: (1) validates,
    (2) persists, (3) runs notification side effects inline before returning
    control to the caller"; a validation error is reported before
    persistence, and [raw] is the bulk-load flag handed to the receivers. *)
Definition save `{Externals} (instance : Story.t) (raw : bool) : M unit :=
  fun w =>
    let created := bool_decide (stories w !! Story.slug instance = None) in
    (lift (Story.clean instance) >>
     persist instance >>
     post_save instance created {[ "raw" := Py.VBool raw ]}) w.

(** ** Sample records and collaborators *)

Definition psf_category : StoryCategory.t :=
  StoryCategory.mk "Business" "business".

Definition acme_markup : Markup.t :=
  Markup.mk "We use Python." "restructuredtext" "<p>We use Python.</p>".

Definition acme (published featured : bool) (w : Z) : Story.t :=
  Story.mk "Acme" "acme" "Acme Inc" "http://acme.example" None psf_category
           "Wile" (Some "wile@acme.example") "It works" acme_markup
           published featured w None.

Definition acme_corp : Company.t :=
  Company.mk "Acme Corporation" "http://corp.example".

Definition acme_linked : Story.t :=
  Story.set_company (Some acme_corp) (acme false false 0).

Definition acme_anonymous : Story.t :=
  Story.mk "Acme" "acme" "Acme Inc" "http://acme.example" None psf_category
           "Wile" None "It works" acme_markup false false 0 None.

(** Collaborators for the examples: [backend] is the mail backend's answer. *)
Definition sample_externals (backend : option string) : Externals := {|
  DEFAULT_FROM_EMAIL := "noreply@python.org";
  render_to_string := fun template story =>
    "<" +:+ template +:+ ":" +:+ Story.name story +:+ ">";
  reverse := fun viewname kwargs =>
    "/" +:+ viewname +:+ "/" +:+ default "" (kwargs !! "slug") +:+ "/";
  format_markup := Markup.rendered;
  deliver := fun _ => backend
|}.

Definition not_raw : gmap string Py.val :=
  {[ "raw" := Py.VBool false; "using" := Py.VStr "default"; "update_fields" := Py.VNone ]}.

Definition is_raw : gmap string Py.val :=
  {[ "raw" := Py.VBool true; "using" := Py.VStr "default"; "update_fields" := Py.VNone ]}.

(** Reading back a decimal integer, the inverse of [Py.str_int]. *)
Definition parse_int (s : string) : option Z :=
  option_map Z.of_int (NilZero.int_of_string s).

(** ** Successive saves *)

(** What the receivers are called with after one save: the instance, the
    [created] flag and the keyword arguments. *)
Definition post_save_event : Type := Story.t * bool * gmap string Py.val.

(** The dispatches of successive saves. Each starts from the world the
    previous one left; an exception ends its own dispatch only (it reaches
    the caller of that save). *)
Fixpoint post_save_each `{Externals} (events : list post_save_event) (w : World) : World :=
  match events with
  | [] => w
  | (instance, created, kwargs) :: rest =>
      post_save_each rest (fst (post_save instance created kwargs w))
  end.

(** The saves that notify: not raw, and of an unpublished story. *)
Definition notifies (ev : post_save_event) : bool :=
  let '(instance, _, kwargs) := ev in
  negb (raw_flag kwargs) && negb (Story.is_published instance).

(** The saves that rewrite the supernav box: not raw, published and featured. *)
Definition rewrites_box (ev : post_save_event) : bool :=
  let '(instance, _, kwargs) := ev in
  negb (raw_flag kwargs) && Story.is_published instance && Story.featured instance.

(** * Properties *)

(** ** Validation *)

Lemma clean_passes_iff (s : Story.t) :
  Story.clean s = inr tt <->
  (Story.featured s = true -> Story.weight s <> 0) /\ Story.weight s <= 100.
Proof.
  unfold Story.clean.
  destruct (Story.featured s); simpl;
    destruct (Z.eqb_spec (Story.weight s) 0);
    destruct (Z.ltb_spec 100 (Story.weight s));
    split; try discriminate; try (intros [H1 H2]); try intros _;
    try reflexivity; try lia; try (split; [intros _|]; lia);
    try (exfalso; apply H1; auto).
Qed.

(** C1 (as amended): a record with weight 0 fails validation exactly when it
    is featured, and the error then raised is
    [ValidationError("Cannot be a featured story with weight==0")]; with
    weight 0 and [featured] false validation passes. *)
Theorem clean_zero_weight (s : Story.t) :
  Story.weight s = 0 ->
  Story.clean s =
    if Story.featured s
    then inl (Py.ValidationError "Cannot be a featured story with weight==0")
    else inr tt.
Proof.
  intros Hw. unfold Story.clean. rewrite Hw.
  destruct (Story.featured s); reflexivity.
Qed.

(** C2: a weight strictly above 100 fails validation with
    [ValidationError("weight cannot exceed 100")] whatever [featured] is, and
    a weight of exactly 100 passes. *)
Theorem clean_weight_above_100 (s : Story.t) :
  (100 < Story.weight s ->
   Story.clean s = inl (Py.ValidationError "weight cannot exceed 100")) /\
  (Story.weight s = 100 -> Story.clean s = inr tt).
Proof.
  unfold Story.clean. split; intros Hw.
  - replace (Story.weight s =? 0) with false by (symmetry; apply Z.eqb_neq; lia).
    rewrite andb_false_r.
    replace (100 <? Story.weight s) with true by (symmetry; apply Z.ltb_lt; lia).
    reflexivity.
  - rewrite Hw. simpl. rewrite andb_false_r. reflexivity.
Qed.

(** C10: validation puts no lower bound on the weight: every record with a
    strictly negative weight passes, featured or not. *)
Theorem clean_negative_weight (s : Story.t) :
  Story.weight s < 0 -> Story.clean s = inr tt.
Proof.
  intros Hw. apply clean_passes_iff. split; [intros _|]; lia.
Qed.

(** ** Display helpers *)

(** C6: [get_company_name] and [get_company_url] return the linked company's
    name and url when the reference is set, and the inline [company_name]
    and [company_url] fields when it is not. *)
Theorem get_company_resolution (s : Story.t) :
  (forall c, Story.company s = Some c ->
     Story.get_company_name s = Company.name c /\
     Story.get_company_url s = Company.url c) /\
  (Story.company s = None ->
     Story.get_company_name s = Story.company_name s /\
     Story.get_company_url s = Story.company_url s).
Proof.
  unfold Story.get_company_name, Story.get_company_url.
  split; [intros c Hc | intros Hc]; rewrite Hc; split; reflexivity.
Qed.

Lemma parse_str_int (z : Z) : parse_int (Py.str_int z) = Some z.
Proof.
  unfold parse_int, Py.str_int.
  rewrite NilZero.isi.
  - simpl. f_equal. apply DecimalZ.of_to.
  - destruct z; simpl; try discriminate.
    intros Heq. injection Heq as Heq. revert Heq. apply DecimalPos.Unsigned.to_uint_nonnil.
  - destruct z; simpl; try discriminate.
    intros Heq. injection Heq as Heq. revert Heq. apply DecimalPos.Unsigned.to_uint_nonnil.
Qed.

(** C7 (as amended): [get_weight_display] returns the decimal representation
    of the weight (the string that reads back as the weight), followed by
    one space and a percent sign. *)
Theorem get_weight_display_format (s : Story.t) :
  Story.get_weight_display s = Py.str_int (Story.weight s) +:+ " %" /\
  parse_int (Py.str_int (Story.weight s)) = Some (Story.weight s).
Proof.
  split; [reflexivity | apply parse_str_int].
Qed.

(** ** The post-save receivers *)

Section Receivers.
Context `{E : Externals}.

Implicit Types (s : Story.t) (w : World) (kw : gmap string Py.val).

Lemma world_eta w : mkWorld (stories w) (boxes w) (purged w) (outbox w) = w.
Proof. destruct w; reflexivity. Qed.

(** What [update_successstories_supernav] leaves behind on a non-raw save. *)
Lemma update_supernav_run s created kw w :
  raw_flag kw = false ->
  update_successstories_supernav s created kw w =
    (mkWorld (stories w)
       (if Story.is_published s && Story.featured s
        then <["supernav-python-success-stories" :=
                 render_to_string "successstories/supernav.html" s]> (boxes w)
        else boxes w)
       (purged w ++
          (if Story.is_published s
           then (if Story.featured s
                 then ["/box/supernav-python-success-stories/"] else []) ++
                [get_absolute_url s]
           else []))%list
       (outbox w),
     inr tt).
Proof.
  intros Hraw. unfold update_successstories_supernav. rewrite Hraw.
  destruct (Story.is_published s), (Story.featured s); simpl;
    unfold bind, ret, purge_url, Box_save, Box_get_or_create; simpl.
  - destruct (boxes w !! "supernav-python-success-stories"); simpl;
      rewrite <- ?app_assoc; [reflexivity |].
    rewrite insert_insert_eq. reflexivity.
  - reflexivity.
  - rewrite app_nil_r, world_eta. reflexivity.
  - rewrite app_nil_r, world_eta. reflexivity.
Qed.

Lemma update_supernav_raw s created kw w :
  raw_flag kw = true ->
  update_successstories_supernav s created kw w = (w, inr tt).
Proof.
  intros Hraw. unfold update_successstories_supernav. rewrite Hraw. reflexivity.
Qed.

Lemma notification_recipients s :
  EmailMessage.recipients (notification s) = PSF_TO_EMAILS.
Proof. reflexivity. Qed.

(** What [send_email_to_psf] does on a non-raw save. *)
Lemma send_email_run s created kw w :
  raw_flag kw = false ->
  send_email_to_psf s created kw w =
    if Story.is_published s then (w, inr tt)
    else
      (mkWorld (stories w) (boxes w) (purged w) (outbox w ++ [notification s]),
       match deliver (notification s) with
       | None => inr tt
       | Some d => inl (Py.TransportError d)
       end).
Proof.
  intros Hraw. unfold send_email_to_psf. rewrite Hraw.
  destruct (Story.is_published s); simpl; [reflexivity |].
  unfold bind, EmailMessage_send. rewrite notification_recipients. simpl.
  destruct (deliver (notification s)); reflexivity.
Qed.

Lemma send_email_raw s created kw w :
  raw_flag kw = true -> send_email_to_psf s created kw w = (w, inr tt).
Proof.
  intros Hraw. unfold send_email_to_psf. rewrite Hraw. reflexivity.
Qed.

(** Both receivers in sequence, on a non-raw save. *)
Lemma post_save_run s created kw w :
  raw_flag kw = false ->
  post_save s created kw w =
    let w1 := fst (update_successstories_supernav s created kw w) in
    if Story.is_published s then (w1, inr tt)
    else
      (mkWorld (stories w) (boxes w) (purged w) (outbox w ++ [notification s]),
       match deliver (notification s) with
       | None => inr tt
       | Some d => inl (Py.TransportError d)
       end).
Proof.
  intros Hraw. unfold post_save, post_save_receivers. simpl.
  unfold bind at 1. rewrite (update_supernav_run _ _ _ _ Hraw).
  unfold bind at 1. rewrite (send_email_run _ _ _ _ Hraw).
  destruct (Story.is_published s); simpl.
  - unfold ret. reflexivity.
  - rewrite app_nil_r. destruct (deliver (notification s)); reflexivity.
Qed.

(** C3: on a non-raw save of an unpublished story exactly one message is
    handed to the mail backend, whether the record was just created or
    edited, and whatever was sent before: its subject is
    "New success story submission: " followed by the story's name, its
    recipients are the two maintainer addresses, and its Reply-To header is
    the story's [author_email]. On a non-raw save of a published story no
    message is sent. *)
Theorem post_save_notification s created kw w :
  raw_flag kw = false ->
  let m := notification s in
  let r := post_save s created kw w in
  EmailMessage.subject m = "New success story submission: " +:+ Story.name s /\
  EmailMessage.recipients m = ["ewa@python.org"; "berker.peksag@gmail.com"] /\
  EmailMessage.headers m !! "Reply-To" = Some (Story.author_email s) /\
  outbox (fst r) =
    (if Story.is_published s then outbox w else outbox w ++ [m])%list /\
  snd r =
    (if Story.is_published s then inr tt
     else match deliver m with
          | None => inr tt
          | Some d => inl (Py.TransportError d)
          end).
Proof.
  intros Hraw m r. subst r.
  rewrite (post_save_run _ _ _ _ Hraw).
  rewrite (update_supernav_run _ _ _ _ Hraw).
  split; [reflexivity |]. split; [reflexivity |].
  split; [subst m; unfold notification; simpl; apply lookup_singleton_eq |].
  split; destruct (Story.is_published s); reflexivity.
Qed.

(** C4: on a non-raw save, a published and featured story has the box
    labelled "supernav-python-success-stories" created or overwritten with
    the rendered template and exactly two purges, the box path then the
    story's detail URL; a published story that is not featured has exactly
    one purge, its detail URL, and no box update; an unpublished story has
    no box update and no purge. *)
Theorem post_save_cache_actions s created kw w :
  raw_flag kw = false ->
  let w' := fst (post_save s created kw w) in
  match Story.is_published s, Story.featured s with
  | true, true =>
      boxes w' =
        <["supernav-python-success-stories" :=
            render_to_string "successstories/supernav.html" s]> (boxes w) /\
      purged w' =
        (purged w ++ ["/box/supernav-python-success-stories/";
                      get_absolute_url s])%list
  | true, false =>
      boxes w' = boxes w /\
      purged w' = (purged w ++ [get_absolute_url s])%list
  | false, _ =>
      boxes w' = boxes w /\ purged w' = purged w
  end.
Proof.
  intros Hraw w'. subst w'.
  rewrite (post_save_run _ _ _ _ Hraw).
  rewrite (update_supernav_run _ _ _ _ Hraw).
  destruct (Story.is_published s), (Story.featured s); simpl; split; reflexivity.
Qed.

(** C5: when the raw flag is set, neither receiver does anything: the box
    store, the purge log and the mail log are left as they were and nothing
    is raised, whatever the record holds. *)
Theorem post_save_raw s created kw w :
  raw_flag kw = true ->
  update_successstories_supernav s created kw w = (w, inr tt) /\
  send_email_to_psf s created kw w = (w, inr tt) /\
  post_save s created kw w = (w, inr tt).
Proof.
  intros Hraw. split; [| split].
  - apply update_supernav_raw, Hraw.
  - apply send_email_raw, Hraw.
  - unfold post_save, post_save_receivers. simpl.
    unfold bind at 1. rewrite (update_supernav_raw _ _ _ _ Hraw).
    unfold bind at 1. rewrite (send_email_raw _ _ _ _ Hraw).
    reflexivity.
Qed.

(** C8: when the mail backend fails on the notification of an unpublished
    story, [send_email_to_psf] raises that failure, the dispatch lets it
    through, and the save ends with it although the record has been stored. *)
Theorem save_email_failure_propagates s d w :
  Story.clean s = inr tt ->
  Story.is_published s = false ->
  deliver (notification s) = Some d ->
  (forall created kw w0, raw_flag kw = false ->
     snd (send_email_to_psf s created kw w0) = inl (Py.TransportError d) /\
     snd (post_save s created kw w0) = inl (Py.TransportError d)) /\
  snd (save s false w) = inl (Py.TransportError d) /\
  stories (fst (save s false w)) !! Story.slug s = Some s.
Proof.
  intros Hclean Hpub Hfail. split.
  - intros created kw w0 Hraw.
    rewrite (send_email_run _ _ _ _ Hraw), (post_save_run _ _ _ _ Hraw).
    rewrite Hpub, Hfail. split; reflexivity.
  - unfold save, bind, lift, persist. rewrite Hclean.
    rewrite post_save_run by (vm_compute; reflexivity).
    rewrite Hpub, Hfail. simpl. split; [reflexivity | apply lookup_insert_eq].
Qed.

(** C9: the notification of an unpublished story with a linked company
    carries the inline [company_name] and [company_url] in its body, and the
    message is the same whatever the company reference is (another company,
    or none): the linked company's name and url are not used in it. *)
Theorem notification_ignores_linked_company s c created kw w :
  raw_flag kw = false ->
  Story.is_published s = false ->
  Story.company s = Some c ->
  exists m,
    outbox (fst (post_save s created kw w)) = (outbox w ++ [m])%list /\
    EmailMessage.body m =
      "Name: " +:+ Story.name s +:+ nl +:+
      "Company name: " +:+ Story.company_name s +:+ nl +:+
      "Company URL: " +:+ Story.company_url s +:+ nl +:+
      "Category: " +:+ StoryCategory.name (Story.category s) +:+ nl +:+
      "Author: " +:+ Story.author s +:+ nl +:+
      "Author email: " +:+ Py.str_opt (Story.author_email s) +:+ nl +:+
      "Pull quote:" +:+ nl +:+ nl +:+
      Story.pull_quote s +:+ nl +:+ nl +:+
      "Content:" +:+ nl +:+ nl +:+
      format_markup (Story.content s) +:+ nl +:+
      "        " /\
    forall c',
      outbox (fst (post_save (Story.set_company c' s) created kw w)) =
        (outbox w ++ [m])%list.
Proof.
  intros Hraw Hpub _. exists (notification s).
  split; [| split; [reflexivity |]].
  - rewrite (post_save_run _ _ _ _ Hraw), Hpub. reflexivity.
  - intros c'. rewrite (post_save_run _ _ _ _ Hraw). simpl.
    rewrite Hpub. reflexivity.
Qed.

End Receivers.

(** * The properties on concrete records *)

(** [featured=true, weight=0] is rejected with the message of the source. *)
Lemma clean_zero_weight_witness :
  Story.weight (acme true true 0) = 0 /\
  Story.clean (acme true true 0) =
    inl (Py.ValidationError "Cannot be a featured story with weight==0").
Proof.
  split; [reflexivity |].
  exact (clean_zero_weight (acme true true 0) eq_refl).
Defined.

(** The error raised for a featured story of weight 0 does not carry the
    message "featured story cannot have zero weight". *)
Lemma clean_zero_weight_message :
  Story.clean (acme true true 0) =
    inl (Py.ValidationError "Cannot be a featured story with weight==0") /\
  Story.clean (acme true true 0) <>
    inl (Py.ValidationError "featured story cannot have zero weight").
Proof.
  split; [reflexivity | discriminate].
Qed.

Lemma clean_weight_above_100_witness :
  Story.clean (acme true false 101) =
    inl (Py.ValidationError "weight cannot exceed 100") /\
  Story.clean (acme true true 101) =
    inl (Py.ValidationError "weight cannot exceed 100") /\
  Story.clean (acme true true 100) = inr tt.
Proof.
  split; [| split].
  - apply (proj1 (clean_weight_above_100 (acme true false 101))). reflexivity.
  - apply (proj1 (clean_weight_above_100 (acme true true 101))). reflexivity.
  - apply (proj2 (clean_weight_above_100 (acme true true 100))). reflexivity.
Defined.

Lemma clean_negative_weight_witness :
  Story.clean (acme true true (-1)) = inr tt.
Proof.
  apply (clean_negative_weight (acme true true (-1))). reflexivity.
Defined.

Lemma get_company_resolution_witness :
  (Story.get_company_name acme_linked = "Acme Corporation" /\
   Story.get_company_url acme_linked = "http://corp.example") /\
  (Story.get_company_name (acme false false 0) = "Acme Inc" /\
   Story.get_company_url (acme false false 0) = "http://acme.example").
Proof.
  split.
  - apply (proj1 (get_company_resolution acme_linked) acme_corp). reflexivity.
  - apply (proj2 (get_company_resolution (acme false false 0))). reflexivity.
Defined.

(** A weight of 11 is displayed as "11 %", with a space before the sign. *)
Lemma get_weight_display_has_space :
  Story.get_weight_display (acme true true 11) = "11 %" /\
  Story.get_weight_display (acme true true 11) <>
    Py.str_int (Story.weight (acme true true 11)) +:+ "%".
Proof.
  split; [reflexivity | vm_compute; discriminate].
Qed.

(** The record [{name="Acme", is_published=false, featured=false, weight=0}]
    saved without the raw flag: one email, with the expected subject. *)
Lemma post_save_notification_witness :
  raw_flag not_raw = false /\
  EmailMessage.subject (@notification (sample_externals None) (acme false false 0)) =
    "New success story submission: Acme" /\
  outbox (fst (@post_save (sample_externals None) (acme false false 0) true
                 not_raw empty_world)) =
    [@notification (sample_externals None) (acme false false 0)] /\
  snd (@post_save (sample_externals None) (acme false false 0) true
         not_raw empty_world) = inr tt.
Proof.
  assert (Hraw : raw_flag not_raw = false) by (vm_compute; reflexivity).
  split; [exact Hraw |].
  destruct (@post_save_notification (sample_externals None) (acme false false 0)
              true not_raw empty_world Hraw) as (Hs & _ & _ & Ho & Hr).
  split; [exact Hs |]. split; [exact Ho | exact Hr].
Defined.

Lemma post_save_cache_actions_witness :
  boxes (fst (@post_save (sample_externals None) (acme true true 10) false
                not_raw empty_world)) =
    {[ "supernav-python-success-stories" := "<successstories/supernav.html:Acme>" ]} /\
  purged (fst (@post_save (sample_externals None) (acme true true 10) false
                 not_raw empty_world)) =
    ["/box/supernav-python-success-stories/"; "/success_story_detail/acme/"].
Proof.
  assert (Hraw : raw_flag not_raw = false) by (vm_compute; reflexivity).
  destruct (@post_save_cache_actions (sample_externals None) (acme true true 10)
              false not_raw empty_world Hraw) as (Hb & Hp).
  split; [rewrite Hb; vm_compute; reflexivity | rewrite Hp; vm_compute; reflexivity].
Defined.

Lemma post_save_raw_witness :
  @post_save (sample_externals None) (acme false true 0) true is_raw empty_world =
    (empty_world, inr tt).
Proof.
  apply (@post_save_raw (sample_externals None) (acme false true 0) true is_raw
           empty_world).
  vm_compute. reflexivity.
Defined.

Lemma save_email_failure_propagates_witness :
  snd (@save (sample_externals (Some "connection refused")) (acme false false 0)
         false empty_world) =
    inl (Py.TransportError "connection refused") /\
  stories (fst (@save (sample_externals (Some "connection refused"))
                  (acme false false 0) false empty_world)) !! "acme" =
    Some (acme false false 0).
Proof.
  apply (@save_email_failure_propagates
           (sample_externals (Some "connection refused")) (acme false false 0)
           "connection refused" empty_world); reflexivity.
Defined.

Lemma notification_ignores_linked_company_witness :
  exists m,
    outbox (fst (@post_save (sample_externals None) acme_linked true not_raw
                   empty_world)) = [m] /\
    EmailMessage.body m =
      "Name: Acme" +:+ nl +:+
      "Company name: Acme Inc" +:+ nl +:+
      "Company URL: http://acme.example" +:+ nl +:+
      "Category: Business" +:+ nl +:+
      "Author: Wile" +:+ nl +:+
      "Author email: wile@acme.example" +:+ nl +:+
      "Pull quote:" +:+ nl +:+ nl +:+
      "It works" +:+ nl +:+ nl +:+
      "Content:" +:+ nl +:+ nl +:+
      "<p>We use Python.</p>" +:+ nl +:+
      "        ".
Proof.
  assert (Hraw : raw_flag not_raw = false) by (vm_compute; reflexivity).
  destruct (@notification_ignores_linked_company (sample_externals None)
              acme_linked acme_corp true not_raw empty_world Hraw eq_refl eq_refl)
    as (m & Ho & Hb & _).
  exists m. split; [exact Ho | exact Hb].
Defined.

(** * Further properties *)

(** ** Validation, completely *)

(** X1: validation passes exactly for the records whose weight is at most
    100 and, when featured, not 0. *)
Theorem clean_passes_exactly (s : Story.t) :
  Story.clean s = inr tt <->
  (Story.featured s = true -> Story.weight s <> 0) /\ Story.weight s <= 100.
Proof. apply clean_passes_iff. Qed.

(** X2: whatever [clean] raises is a [ValidationError] with one of two
    messages, and the message tells the cause: the zero-weight message means
    a featured record of weight 0, the other a weight above 100. *)
Theorem clean_error_cause (s : Story.t) (e : Py.exn) :
  Story.clean s = inl e ->
  (e = Py.ValidationError "Cannot be a featured story with weight==0" /\
   Story.featured s = true /\ Story.weight s = 0) \/
  (e = Py.ValidationError "weight cannot exceed 100" /\ 100 < Story.weight s).
Proof.
  unfold Story.clean.
  destruct (Story.featured s); simpl;
    destruct (Z.eqb_spec (Story.weight s) 0);
    destruct (Z.ltb_spec 100 (Story.weight s));
    intros Heq; try discriminate; injection Heq as <-; auto.
Qed.

(** X3: the two checks of [clean] never apply to the same record, so their
    order decides nothing: checking the upper bound first gives the same
    answer on every record. *)
Theorem clean_checks_commute (s : Story.t) :
  Story.clean s =
    if 100 <? Story.weight s then
      inl (Py.ValidationError "weight cannot exceed 100")
    else if Story.featured s && (Story.weight s =? 0) then
      inl (Py.ValidationError "Cannot be a featured story with weight==0")
    else inr tt.
Proof.
  unfold Story.clean.
  destruct (Z.eqb_spec (Story.weight s) 0) as [Hz | Hz];
    destruct (Z.ltb_spec 100 (Story.weight s)); try lia;
    rewrite ?andb_false_r; reflexivity.
Qed.

(** ** The weight display *)

Lemma list_ascii_of_append (a b : string) :
  list_ascii_of_string (a +:+ b) =
    (list_ascii_of_string a ++ list_ascii_of_string b)%list.
Proof.
  induction a as [| ch a IH]; simpl; [reflexivity | now rewrite IH].
Qed.

Lemma append_inv_tail (a b t : string) : a +:+ t = b +:+ t -> a = b.
Proof.
  intros Heq. apply (f_equal list_ascii_of_string) in Heq.
  rewrite !list_ascii_of_append in Heq. apply app_inv_tail in Heq.
  rewrite <- (string_of_list_ascii_of_string a),
          <- (string_of_list_ascii_of_string b).
  now rewrite Heq.
Qed.

Lemma str_int_inj (x y : Z) : Py.str_int x = Py.str_int y -> x = y.
Proof.
  intros Heq. apply (f_equal parse_int) in Heq.
  rewrite !parse_str_int in Heq. now injection Heq.
Qed.

(** X4: the weight display determines the weight: two records display the
    same text only when their weights are equal. *)
Theorem get_weight_display_inj (s1 s2 : Story.t) :
  Story.get_weight_display s1 = Story.get_weight_display s2 ->
  Story.weight s1 = Story.weight s2.
Proof.
  unfold Story.get_weight_display. intros Heq.
  apply str_int_inj. exact (append_inv_tail _ _ _ Heq).
Qed.

(** ** The receivers, for every call *)

Section ReceiverLaws.
Context `{E : Externals}.

Implicit Types (s : Story.t) (w : World) (kw : gmap string Py.val).

(** The dispatch of both receivers, in every case. *)
Lemma post_save_world s created kw w :
  post_save s created kw w =
    if raw_flag kw then (w, inr tt)
    else if Story.is_published s then
      (mkWorld (stories w)
         (if Story.featured s
          then <["supernav-python-success-stories" :=
                   render_to_string "successstories/supernav.html" s]> (boxes w)
          else boxes w)
         (purged w ++
            (if Story.featured s
             then ["/box/supernav-python-success-stories/"] else []) ++
            [get_absolute_url s])%list
         (outbox w),
       inr tt)
    else
      (mkWorld (stories w) (boxes w) (purged w) (outbox w ++ [notification s]),
       match deliver (notification s) with
       | None => inr tt
       | Some d => inl (Py.TransportError d)
       end).
Proof.
  destruct (raw_flag kw) eqn:Hraw.
  - unfold post_save, post_save_receivers. simpl.
    unfold bind at 1. rewrite (update_supernav_raw _ _ _ _ Hraw).
    unfold bind at 1. rewrite (send_email_raw _ _ _ _ Hraw).
    reflexivity.
  - rewrite (post_save_run _ _ _ _ Hraw), (update_supernav_run _ _ _ _ Hraw).
    destruct (Story.is_published s); reflexivity.
Qed.



(** X6: [send_email_to_psf] never touches the stored stories, the boxes or
    the purge log, and hands at most one message to the mail backend, the
    notification of the saved story. *)
Theorem send_email_frame s created kw w :
  let r := send_email_to_psf s created kw w in
  stories (fst r) = stories w /\
  boxes (fst r) = boxes w /\
  purged (fst r) = purged w /\
  (outbox (fst r) = outbox w \/
   outbox (fst r) = (outbox w ++ [notification s])%list).
Proof.
  intros r. subst r.
  destruct (raw_flag kw) eqn:Hraw.
  - rewrite (send_email_raw _ _ _ _ Hraw). simpl. auto.
  - rewrite (send_email_run _ _ _ _ Hraw).
    destruct (Story.is_published s); simpl; auto.
Qed.


(** X8: one dispatch never both notifies and acts on the cache: either the
    mail log is as before, or the boxes and the purge log are. *)
Theorem post_save_mail_or_cache s created kw w :
  let w' := fst (post_save s created kw w) in
  outbox w' = outbox w \/ (boxes w' = boxes w /\ purged w' = purged w).
Proof.
  intros w'. subst w'. rewrite post_save_world.
  destruct (raw_flag kw), (Story.is_published s); simpl; auto.
Qed.

(** X9: the order in which the two receivers are connected decides nothing:
    dispatching to them the other way round gives the same world and the
    same outcome. *)
Theorem post_save_receiver_order s created kw w :
  Signal_send [send_email_to_psf; update_successstories_supernav] s created kw w =
  post_save s created kw w.
Proof.
  rewrite post_save_world. simpl. unfold bind at 1.
  destruct (raw_flag kw) eqn:Hraw.
  - rewrite (send_email_raw _ _ _ _ Hraw). unfold bind at 1.
    rewrite (update_supernav_raw _ _ _ _ Hraw). reflexivity.
  - rewrite (send_email_run _ _ _ _ Hraw).
    destruct (Story.is_published s) eqn:Hpub.
    + unfold bind at 1. rewrite (update_supernav_run _ _ _ _ Hraw), Hpub.
      reflexivity.
    + destruct (deliver (notification s)); [reflexivity |].
      unfold bind at 1. rewrite (update_supernav_run _ _ _ _ Hraw), Hpub.
      simpl. rewrite app_nil_r. reflexivity.
Qed.

(** X10: the dispatch looks at its arguments only through the instance and
    the truth value of [raw]: the [created] flag and every other keyword
    argument change nothing. *)
Theorem post_save_ignores_created s created1 created2 kw1 kw2 w :
  raw_flag kw1 = raw_flag kw2 ->
  post_save s created1 kw1 w = post_save s created2 kw2 w.
Proof.
  intros Hraw. rewrite !post_save_world, Hraw. reflexivity.
Qed.

(** X11: keyword arguments without a [raw] entry count as not raw: the
    notification of an unpublished story is sent. *)
Theorem post_save_without_raw_key s created kw w :
  kw !! "raw" = None ->
  Story.is_published s = false ->
  outbox (fst (post_save s created kw w)) = (outbox w ++ [notification s])%list.
Proof.
  intros Hkey Hpub. rewrite post_save_world.
  unfold raw_flag, Py.dict_get. rewrite Hkey, Hpub. reflexivity.
Qed.

End ReceiverLaws.

(** ** Successive saves *)

Section SuccessiveSaves.
Context `{E : Externals}.

Implicit Types (s : Story.t) (w : World) (kw : gmap string Py.val).
Implicit Types (ev : post_save_event) (evs : list post_save_event).

Lemma post_save_each_app evs1 evs2 w :
  post_save_each (evs1 ++ evs2) w = post_save_each evs2 (post_save_each evs1 w).
Proof.
  revert w. induction evs1 as [| [[s created] kw] evs1 IH]; intros w; simpl;
    [reflexivity | apply IH].
Qed.

(** X12: over any sequence of saves, the mail log grows by exactly the
    notifications of the saves that are not raw and of an unpublished story,
    one per such save and in the order of the saves; a story saved again
    while unpublished is notified again. *)
Theorem post_save_each_outbox evs w :
  outbox (post_save_each evs w) =
    (outbox w ++ map (fun ev => notification (fst (fst ev))) (List.filter notifies evs))%list.
Proof.
  revert w. induction evs as [| [[s created] kw] evs IH]; intros w; simpl.
  - now rewrite app_nil_r.
  - rewrite IH, post_save_world.
    destruct (raw_flag kw), (Story.is_published s); simpl; try reflexivity.
    now rewrite <- app_assoc.
Qed.

(** X13: over any sequence of saves, the supernav box ends up with the
    rendering of the last story saved published and featured without the
    raw flag, whatever was saved before or after it; without such a save
    the boxes are as they were. No other box ever changes. *)
Theorem post_save_each_boxes evs w :
  boxes (post_save_each evs w) =
    match last (List.filter rewrites_box evs) with
    | Some (s, _, _) =>
        <["supernav-python-success-stories" :=
            render_to_string "successstories/supernav.html" s]> (boxes w)
    | None => boxes w
    end.
Proof.
  revert w. induction evs as [| [[s created] kw] evs IH]; intros w; simpl;
    [reflexivity |].
  rewrite IH, post_save_world.
  destruct (raw_flag kw), (Story.is_published s), (Story.featured s); simpl;
    try reflexivity.
  destruct (List.filter rewrites_box evs) as [| ev rest] eqn:Hf; simpl;
    [reflexivity |].
  destruct (last (ev :: rest)) as [[[s' c'] kw'] |] eqn:Hl.
  - apply insert_insert_eq.
  - apply last_None in Hl. discriminate.
Qed.

(** X14: a save that notifies and a save that acts on the cache commute:
    saving an unpublished story and a published one, in either order,
    leaves the same world. *)
Theorem post_save_commute s1 s2 created1 created2 kw1 kw2 w :
  Story.is_published s1 = false ->
  Story.is_published s2 = true ->
  post_save_each [(s1, created1, kw1); (s2, created2, kw2)] w =
  post_save_each [(s2, created2, kw2); (s1, created1, kw1)] w.
Proof.
  intros Hp1 Hp2. simpl. rewrite !post_save_world, Hp1, Hp2.
  destruct (raw_flag kw1), (raw_flag kw2); reflexivity.
Qed.

(** X15: a notification for a story without author email: the Reply-To
    header holds [None], and the body line reads "Author email: None". *)
Theorem notification_without_author_email s :
  Story.author_email s = None ->
  EmailMessage.headers (notification s) !! "Reply-To" = Some None /\
  EmailMessage.body (notification s) =
    "Name: " +:+ Story.name s +:+ nl +:+
    "Company name: " +:+ Story.company_name s +:+ nl +:+
    "Company URL: " +:+ Story.company_url s +:+ nl +:+
    "Category: " +:+ StoryCategory.name (Story.category s) +:+ nl +:+
    "Author: " +:+ Story.author s +:+ nl +:+
    "Author email: None" +:+ nl +:+
    "Pull quote:" +:+ nl +:+ nl +:+
    Story.pull_quote s +:+ nl +:+ nl +:+
    "Content:" +:+ nl +:+ nl +:+
    format_markup (Story.content s) +:+ nl +:+
    "        ".
Proof.
  intros Hnone. unfold notification, body_format. simpl. rewrite Hnone.
  split; [apply lookup_singleton_eq | reflexivity].
Qed.

(** X16: over any sequence of saves, the purge log grows, save by save and
    in order, by nothing for a raw or unpublished save, by the story's URL
    for a published one, preceded by the supernav box path when the story
    is featured too. *)
Theorem post_save_each_purged evs w :
  purged (post_save_each evs w) =
    (purged w ++
     flat_map (fun ev : post_save_event =>
                 let s := fst (fst ev) in
                 if raw_flag (snd ev) || negb (Story.is_published s) then []
                 else (if Story.featured s
                       then ["/box/supernav-python-success-stories/"] else []) ++
                      [get_absolute_url s])
              evs)%list.
Proof.
  revert w. induction evs as [| [[s created] kw] evs IH]; intros w; simpl.
  - now rewrite app_nil_r.
  - rewrite IH, post_save_world.
    destruct (raw_flag kw), (Story.is_published s); simpl; try reflexivity.
    now rewrite <- !app_assoc.
Qed.

End SuccessiveSaves.

(** * The further properties on concrete records *)

Lemma clean_error_cause_witness :
  (Py.ValidationError "weight cannot exceed 100" =
     Py.ValidationError "Cannot be a featured story with weight==0" /\
   Story.featured (acme true false 250) = true /\
   Story.weight (acme true false 250) = 0) \/
  (Py.ValidationError "weight cannot exceed 100" =
     Py.ValidationError "weight cannot exceed 100" /\
   100 < Story.weight (acme true false 250)).
Proof.
  exact (clean_error_cause (acme true false 250)
           (Py.ValidationError "weight cannot exceed 100") eq_refl).
Defined.

Lemma get_weight_display_inj_witness :
  Story.get_weight_display (acme true true 30) =
    Story.get_weight_display (acme false false 30) /\
  Story.weight (acme true true 30) = Story.weight (acme false false 30).
Proof.
  split; [reflexivity |].
  exact (get_weight_display_inj (acme true true 30) (acme false false 30) eq_refl).
Defined.

Lemma post_save_ignores_created_witness :
  @post_save (sample_externals None) (acme false false 0) true not_raw empty_world =
  @post_save (sample_externals None) (acme false false 0) false ∅ empty_world.
Proof.
  apply (@post_save_ignores_created (sample_externals None)).
  vm_compute. reflexivity.
Defined.

Lemma post_save_without_raw_key_witness :
  outbox (fst (@post_save (sample_externals None) (acme false false 0) true ∅
                 empty_world)) =
    [@notification (sample_externals None) (acme false false 0)].
Proof.
  apply (@post_save_without_raw_key (sample_externals None) (acme false false 0)
           true ∅ empty_world); reflexivity.
Defined.

Lemma post_save_commute_witness :
  @post_save_each (sample_externals None)
    [(acme false false 0, true, not_raw); (acme true true 10, false, not_raw)]
    empty_world =
  @post_save_each (sample_externals None)
    [(acme true true 10, false, not_raw); (acme false false 0, true, not_raw)]
    empty_world.
Proof.
  apply (@post_save_commute (sample_externals None)); reflexivity.
Defined.

Lemma notification_without_author_email_witness :
  EmailMessage.headers (@notification (sample_externals None) acme_anonymous)
    !! "Reply-To" = Some None.
Proof.
  apply (@notification_without_author_email (sample_externals None) acme_anonymous).
  reflexivity.
Defined.
